(** * Country-Capitals: the resolver of [country_capitals/main.py]

    A shallow embedding of the lookup chain of [main.py] and the proofs of
    the properties its specification states.

    The Python program is dynamically typed: [get_capital] takes a query of
    type [Any] and hands it to every strategy in turn, so the strategies are
    modelled on Python values ([pyval]), not on the types their annotations
    name.  Exceptions are modelled by their class, with the subclass
    relation to [ValueError] that the [except ValueError] clause tests; the
    text of the messages is not modelled.

    [pycountry] and the bundled [capitals.json] are not part of the program:
    they are the fields of an environment [Env] over which every definition
    is parametric; nothing is assumed about them. *)

From Stdlib Require Import Ascii String.
From stdpp Require Import base option list strings gmap.

Local Open Scope string_scope.

(** ** Python values, exceptions and results *)

(** The exception classes the program raises or can meet.  The two classes
    of lines 9-14 derive from [ValueError]; the others are built-in classes
    that do not. *)
Inductive exn : Set :=
  | ValueError
  | CountryNotFoundError
  | CapitalNotFoundError
  | AttributeError
  | TypeError
  | KeyError
  | IndexError
  | LookupError.

(** [isinstance(e, ValueError)], what [except ValueError] tests. *)
Definition is_ValueError (e : exn) : bool :=
  match e with
  | ValueError | CountryNotFoundError | CapitalNotFoundError => true
  | _ => false
  end.

Inductive result (A : Type) : Type :=
  | Ok (a : A)
  | Raise (e : exn).
Arguments Ok {A} a.
Arguments Raise {A} e.

#[global] Instance result_ret : MRet result := @Ok.
#[global] Instance result_bind : MBind result :=
  fun A B (k : A → result B) (m : result A) =>
    match m with
    | Ok a => k a
    | Raise e => Raise e
    end.

(** A [pycountry.db.Country] record.  [common_name] and [official_name] are
    present on some records only. *)
Record Country : Set := mkCountry {
  alpha_2 : string;
  alpha_3 : string;
  numeric : string;
  name : string;
  common_name : option string;
  official_name : option string
}.

(** The values a query can be: a [str] (a sequence of characters, each
    [ascii] standing for one code point below 256) or a country record. *)
Inductive pyval : Set :=
  | PStr (s : string)
  | PCountry (c : Country).

#[global] Instance Country_eq_dec : EqDecision Country.
Proof. solve_decision. Defined.
#[global] Instance pyval_eq_dec : EqDecision pyval.
Proof. solve_decision. Defined.

(** ** The [str] methods the program calls *)

(** One character of [str.isdigit]: the decimal digits and, in the range
    modelled, the superscript digits U+00B2, U+00B3 and U+00B9. *)
Definition is_digit_char (c : ascii) : bool :=
  let n := nat_of_ascii c in
  ((48 <=? n)%nat && (n <=? 57)%nat)
  || (n =? 178)%nat || (n =? 179)%nat || (n =? 185)%nat.

Fixpoint all_chars (p : ascii → bool) (s : string) : bool :=
  match s with
  | EmptyString => true
  | String c r => p c && all_chars p r
  end.

(** [s.isdigit()]: every character is a digit and there is at least one. *)
Definition isdigit (s : string) : bool :=
  match s with
  | EmptyString => false
  | String _ _ => all_chars is_digit_char s
  end.

Fixpoint zeros (n : nat) : string :=
  match n with
  | O => EmptyString
  | S k => String "0" (zeros k)
  end.

(** [s.zfill(width)]: zeros on the left up to [width]; a leading sign stays
    in front of them. *)
Definition zfill (width : nat) (s : string) : string :=
  let n := String.length s in
  if (width <=? n)%nat then s
  else
    match s with
    | String c r =>
        if bool_decide (c = "+"%char ∨ c = "-"%char)
        then String c (zeros (width - n) +:+ r)
        else zeros (width - n) +:+ s
    | EmptyString => zeros (width - n)
    end.

(** Attribute and method access on a value of either kind. *)
Definition py_isdigit (v : pyval) : result bool :=
  match v with
  | PStr s => Ok (isdigit s)
  | PCountry _ => Raise AttributeError
  end.

Definition py_zfill (v : pyval) (width : nat) : result pyval :=
  match v with
  | PStr s => Ok (PStr (zfill width s))
  | PCountry _ => Raise AttributeError
  end.

Definition py_len (v : pyval) : result nat :=
  match v with
  | PStr s => Ok (String.length s)
  | PCountry _ => Raise TypeError
  end.

Definition getattr_alpha_3 (v : pyval) : result string :=
  match v with
  | PCountry c => Ok (alpha_3 c)
  | PStr _ => Raise AttributeError
  end.

(** ** The environment: the capital table and the country directory *)

(** The keyword of [pycountry.countries.get(<field>=value)]. *)
Inductive field : Set :=
  | F_alpha_2 | F_alpha_3 | F_numeric
  | F_name | F_common_name | F_official_name.

Record Env : Type := mkEnv {
  (** the dictionary of [capitals.json], line 22 *)
  capitals : gmap string string;
  (** [pycountry.countries.get]: a record, [None], or an exception *)
  countries_get : field → pyval → result (option Country);
  (** [pycountry.countries.search_fuzzy]: the matches, best first *)
  search_fuzzy : pyval → result (list Country)
}.

(** [k in d] and [d[k]] on a dictionary. *)
Definition dict_contains (d : gmap string string) (k : string) : bool :=
  bool_decide (is_Some (d !! k)).

Definition dict_getitem (d : gmap string string) (k : string) : result string :=
  match d !! k with
  | Some v => Ok v
  | None => Raise KeyError
  end.

(** Truth value of what [countries.get] returns: [None] is false, a record
    is true. *)
Definition truthy (o : option Country) : bool :=
  match o with
  | Some _ => true
  | None => false
  end.

Definition py_or (a b : option Country) : option Country :=
  if truthy a then a else b.

Definition py_any (l : list (option Country)) : bool := existsb truthy l.

(** ** The program *)

Section Resolver.
Variable E : Env.

(** Lines 40-44. *)
Definition get_capital_by_pycountry_country (country : pyval) : result string :=
  a ← getattr_alpha_3 country;
  if negb (dict_contains (capitals E) a) then Raise ValueError
  else
    a' ← getattr_alpha_3 country;
    dict_getitem (capitals E) a'.

(** The tail shared by lines 67-70, 82-85, 98-101, 114-117 and 126-129:
    [if country.alpha_3 not in capitals: raise CapitalNotFoundError(...)]
    then [return capitals[country.alpha_3]], on a record of the
    directory. *)
Definition capital_or_raise (country : Country) : result string :=
  if negb (dict_contains (capitals E) (alpha_3 country))
  then Raise CapitalNotFoundError
  else dict_getitem (capitals E) (alpha_3 country).

(** [if country is None: raise CountryNotFoundError(...)] followed by the
    tail above. *)
Definition found_or_raise (country : option Country) : result string :=
  match country with
  | None => Raise CountryNotFoundError
  | Some c => capital_or_raise c
  end.

(** Lines 58-70. *)
Definition get_capital_by_alpha3 (alpha3 : pyval) : result string :=
  n ← py_len alpha3;
  if negb (n =? 3)%nat then Raise ValueError
  else
    country ← countries_get E F_alpha_3 alpha3;
    found_or_raise country.

(** Lines 73-85. *)
Definition get_capital_by_alpha2 (alpha2 : pyval) : result string :=
  n ← py_len alpha2;
  if negb (n =? 2)%nat then Raise ValueError
  else
    country ← countries_get E F_alpha_2 alpha2;
    found_or_raise country.

(** Lines 88-101. *)
Definition get_capital_by_numeric (numeric : pyval) : result string :=
  d ← py_isdigit numeric;
  if negb d then Raise ValueError
  else
    numeric' ← py_zfill numeric 3;
    country ← countries_get E F_numeric numeric';
    found_or_raise country.

(** Lines 47-55. *)
Definition get_capital_by_iso_code (iso_code : pyval) : result string :=
  d ← py_isdigit iso_code;
  if (d : bool) then get_capital_by_numeric iso_code
  else
    n ← py_len iso_code;
    if (n =? 2)%nat then get_capital_by_alpha2 iso_code
    else
      m ← py_len iso_code;
      if (m =? 3)%nat then get_capital_by_alpha3 iso_code
      else Raise ValueError.

(** Lines 104-117.  The three lookups are all made before any test. *)
Definition get_capital_by_name (country_name : pyval) : result string :=
  country_from_name ← countries_get E F_name country_name;
  country_from_common_name ← countries_get E F_common_name country_name;
  country_from_official_name ← countries_get E F_official_name country_name;
  if negb (py_any [country_from_name; country_from_common_name;
                   country_from_official_name])
  then Raise CountryNotFoundError
  else
    match py_or (py_or country_from_name country_from_common_name)
                country_from_official_name with
    | Some country => capital_or_raise country
    | None => Raise AttributeError
    end.

(** Lines 120-129. *)
Definition get_capital_by_fuzzy_name (country_name : pyval) : result string :=
  country ← search_fuzzy E country_name;
  if (length (country : list Country) =? 0)%nat then Raise CountryNotFoundError
  else
    match country with
    | c0 :: _ => capital_or_raise c0
    | [] => Raise IndexError
    end.

(** The loop of lines 31-37: the first function that returns decides; an
    exception that is a [ValueError] is dropped and the next function is
    tried; any other exception leaves the loop and the function; line 37
    is reached when the list is exhausted. *)
Fixpoint try_each (funcs : list (pyval → result string)) (query : pyval)
  : result string :=
  match funcs with
  | [] => Raise ValueError
  | func :: rest =>
      match func query with
      | Ok c => Ok c
      | Raise e => if is_ValueError e then try_each rest query else Raise e
      end
  end.

(** Lines 27-29. *)
Definition FUNCTIONS (fuzzy : bool) : list (pyval → result string) :=
  [get_capital_by_iso_code; get_capital_by_name;
   get_capital_by_pycountry_country]
  ++ (if fuzzy then [get_capital_by_fuzzy_name] else []).

(** Lines 26-37, the function that [lru_cache] wraps. *)
Definition get_capital (query : pyval) (fuzzy : bool) : result string :=
  try_each (FUNCTIONS fuzzy) query.

End Resolver.

(** ** The memoizing wrapper

    [@lru_cache(maxsize=None)] keys the cache on the arguments as they were
    passed (so [get_capital(q)] and [get_capital(q, False)] have separate
    entries), stores a value only when the wrapped function returns, and
    lets an exception through without storing anything. *)

Definition call_args : Set := (pyval * option bool)%type.

Definition cache : Set := list (call_args * string).

Fixpoint cache_find (k : call_args) (st : cache) : option string :=
  match st with
  | [] => None
  | (k', v) :: rest => if bool_decide (k' = k) then Some v else cache_find k rest
  end.

(** The flag the body sees: the default of line 26 when it was not passed. *)
Definition fuzzy_of (k : call_args) : bool := default false (snd k).

Definition get_capital_cached (E : Env) (k : call_args) (st : cache)
  : result string * cache :=
  match cache_find k st with
  | Some v => (Ok v, st)
  | None =>
      match get_capital E (fst k) (fuzzy_of k) with
      | Ok v => (Ok v, (k, v) :: st)
      | Raise e => (Raise e, st)
      end
  end.

(** Every stored value is what the body returns on its key. *)
Definition cache_sound (E : Env) (st : cache) : Prop :=
  Forall (λ kv, get_capital E (fst (fst kv)) (fuzzy_of (fst kv)) = Ok (snd kv)) st.

(** ** The specification's reading, in its own words

    These definitions follow the specification, not the source; the
    theorems below compare them with the program. *)

(** Section 4.1, steps b-d of a strategy, after the directory has answered
    with zero or one record. *)
Definition spec_steps_bcd (E : Env) (r : option Country) : result string :=
  match r with
  | None => Raise CountryNotFoundError
  | Some record =>
      match capitals E !! alpha_3 record with
      | None => Raise CapitalNotFoundError
      | Some capital => Ok capital
      end
  end.

(** The three single-code strategies, the shape each accepts and the call
    each makes to the directory. *)
Inductive code_strategy : Set := ByAlpha2 | ByAlpha3 | ByNumeric.

Definition strategy_of (E : Env) (k : code_strategy) : pyval → result string :=
  match k with
  | ByAlpha2 => get_capital_by_alpha2 E
  | ByAlpha3 => get_capital_by_alpha3 E
  | ByNumeric => get_capital_by_numeric E
  end.

Definition accepted_shape (k : code_strategy) (s : string) : bool :=
  match k with
  | ByAlpha2 => (String.length s =? 2)%nat
  | ByAlpha3 => (String.length s =? 3)%nat
  | ByNumeric => isdigit s
  end.

Definition directory_answer (E : Env) (k : code_strategy) (s : string)
  : result (option Country) :=
  match k with
  | ByAlpha2 => countries_get E F_alpha_2 (PStr s)
  | ByAlpha3 => countries_get E F_alpha_3 (PStr s)
  | ByNumeric => countries_get E F_numeric (PStr (zfill 3 s))
  end.

(** The classes of section 4.1, strategy 1. *)
Inductive code_shape : Set := ShNumeric | ShAlpha2 | ShAlpha3 | ShInvalid.

(** What a query of a given class resolves to: the directory is asked under
    the class's field (the numeric code zero-padded), then steps b-d. *)
Definition resolve_as (E : Env) (sh : code_shape) (s : string) : result string :=
  match sh with
  | ShNumeric => r ← countries_get E F_numeric (PStr (zfill 3 s)); spec_steps_bcd E r
  | ShAlpha2 => r ← countries_get E F_alpha_2 (PStr s); spec_steps_bcd E r
  | ShAlpha3 => r ← countries_get E F_alpha_3 (PStr s); spec_steps_bcd E r
  | ShInvalid => Raise ValueError
  end.

(** The classification as the specification words it: "if all characters
    are digits, ...; else if length is exactly 2, ...; else if length is
    exactly 3, ...; any other ...". *)
Definition spec_classify (s : string) : code_shape :=
  if all_chars is_digit_char s then ShNumeric
  else if (String.length s =? 2)%nat then ShAlpha2
  else if (String.length s =? 3)%nat then ShAlpha3
  else ShInvalid.

(** The branch lines 48-55 take on a string. *)
Definition classify (s : string) : code_shape :=
  if isdigit s then ShNumeric
  else if (String.length s =? 2)%nat then ShAlpha2
  else if (String.length s =? 3)%nat then ShAlpha3
  else ShInvalid.

(** "First non-empty match wins" among the formal, common and official
    name lookups. *)
Definition spec_first_match (formal common official : option Country)
  : option Country :=
  match formal, common, official with
  | Some c, _, _ => Some c
  | None, Some c, _ => Some c
  | None, None, o => o
  end.

(** The chain as the specification words it: the strategies in order, ANY
    failure of one caught, the first success returned, the generic error
    when all fail. *)
Fixpoint spec_first_success (strategies : list (pyval → result string))
  (query : pyval) : result string :=
  match strategies with
  | [] => Raise ValueError
  | strategy :: rest =>
      match strategy query with
      | Ok capital => Ok capital
      | Raise _ => spec_first_success rest query
      end
  end.

Definition spec_strategies (E : Env) (allowFuzzy : bool)
  : list (pyval → result string) :=
  [get_capital_by_iso_code E; get_capital_by_name E;
   get_capital_by_pycountry_country E]
  ++ (if allowFuzzy then [get_capital_by_fuzzy_name E] else []).

Definition spec_resolve (E : Env) (query : pyval) (allowFuzzy : bool)
  : result string :=
  spec_first_success (spec_strategies E allowFuzzy) query.

(** A strategy fails on a query when it raises, whatever the class. *)
Definition fails (strategy : pyval → result string) (query : pyval) : bool :=
  match strategy query with
  | Ok _ => false
  | Raise _ => true
  end.

(** ** A sample environment

    A fragment of the ISO 3166 data of [pycountry] and of the capital
    table, enough to run the program on the scenarios of the
    specification.  Antarctica is a record without a capital. *)

Definition afghanistan : Country :=
  mkCountry "AF" "AFG" "004" "Afghanistan" None
            (Some "Islamic Republic of Afghanistan").
Definition antarctica : Country :=
  mkCountry "AQ" "ATA" "010" "Antarctica" None None.
Definition france : Country :=
  mkCountry "FR" "FRA" "250" "France" None (Some "French Republic").
Definition iran : Country :=
  mkCountry "IR" "IRN" "364" "Iran, Islamic Republic of" (Some "Iran")
            (Some "Islamic Republic of Iran").

Definition sample_countries : list Country :=
  [afghanistan; antarctica; france; iran].

Definition sample_capitals : gmap string string :=
  <["AFG" := "Kabul"]> (<["FRA" := "Paris"]> (<["IRN" := "Tehran"]> ∅)).

Definition field_value (f : field) (c : Country) : option string :=
  match f with
  | F_alpha_2 => Some (alpha_2 c)
  | F_alpha_3 => Some (alpha_3 c)
  | F_numeric => Some (numeric c)
  | F_name => Some (name c)
  | F_common_name => common_name c
  | F_official_name => official_name c
  end.

(** [countries.get] on the sample: the record whose field is the given
    string, [None] when there is none; a [LookupError] on a value that is
    not a string. *)
Definition sample_get (f : field) (v : pyval) : result (option Country) :=
  match v with
  | PStr s =>
      Ok (List.find (λ c, bool_decide (field_value f c = Some s)) sample_countries)
  | PCountry _ => Raise LookupError
  end.

(** [countries.search_fuzzy] on the sample: the records whose name starts
    with the first four characters of the text. *)
Definition sample_search_fuzzy (v : pyval) : result (list Country) :=
  match v with
  | PStr s =>
      Ok (List.filter
            (λ c, bool_decide (substring 0 4 (name c) = substring 0 4 s))
            sample_countries)
  | PCountry _ => Raise AttributeError
  end.

Definition sample_env : Env :=
  mkEnv sample_capitals sample_get sample_search_fuzzy.

(** ** Calling the program

    The seven functions a caller can reach, and a sequence of calls of the
    cached [get_capital] threaded through the cache. *)

(** The strategies whose parameter is annotated [str]. *)
Definition string_strategies (E : Env) : list (pyval → result string) :=
  [get_capital_by_iso_code E; get_capital_by_alpha3 E; get_capital_by_alpha2 E;
   get_capital_by_numeric E; get_capital_by_name E; get_capital_by_fuzzy_name E].

Definition strategies (E : Env) : list (pyval → result string) :=
  get_capital_by_pycountry_country E :: string_strategies E.

(** The body's result on the arguments of a call. *)
Definition get_capital_args (E : Env) (k : call_args) : result string :=
  get_capital E (fst k) (fuzzy_of k).

Fixpoint run_calls (E : Env) (ks : list call_args) (st : cache)
  : list (result string) * cache :=
  match ks with
  | [] => ([], st)
  | k :: rest =>
      let (r, st') := get_capital_cached E k st in
      let (rs, st'') := run_calls E rest st' in
      (r :: rs, st'')
  end.

(** A directory that answers every string without raising. *)
Definition answers_strings (E : Env) : Prop :=
  (∀ f s, ∃ r, countries_get E f (PStr s) = Ok r)
  ∧ (∀ s, ∃ l, search_fuzzy E (PStr s) = Ok l).

(** * Properties *)

(** ** The [str] methods *)

Lemma isdigit_all_chars (s : string) :
  isdigit s = negb (bool_decide (s = "")) && all_chars is_digit_char s.
Proof. destruct s as [|c r]; reflexivity. Qed.

Lemma isdigit_no_sign (c : ascii) (r : string) :
  isdigit (String c r) = true → ¬ (c = "+"%char ∨ c = "-"%char).
Proof.
  simpl. intros H [-> | ->]; vm_compute in H; discriminate.
Qed.

Lemma zfill_long (w : nat) (s : string) :
  (w ≤ String.length s)%nat → zfill w s = s.
Proof.
  intros H. unfold zfill.
  destruct (Nat.leb_spec w (String.length s)) as [_ | Hlt]; [reflexivity | lia].
Qed.

Lemma zfill_digits (w : nat) (s : string) :
  isdigit s = true → zfill w s = zeros (w - String.length s) +:+ s.
Proof.
  intros Hd. unfold zfill.
  destruct (Nat.leb_spec w (String.length s)) as [Hle | Hlt].
  - replace (w - String.length s)%nat with 0%nat by lia. reflexivity.
  - destruct s as [|c r]; [discriminate Hd |].
    rewrite bool_decide_eq_false_2; [reflexivity |].
    by apply (isdigit_no_sign c r).
Qed.

(** ** The single strategies *)

Section Strategies.
Variable E : Env.

Lemma capital_or_raise_lookup (c : Country) :
  capital_or_raise E c =
    match capitals E !! alpha_3 c with
    | Some capital => Ok capital
    | None => Raise CapitalNotFoundError
    end.
Proof.
  unfold capital_or_raise, dict_contains, dict_getitem.
  destruct (capitals E !! alpha_3 c) as [capital|] eqn:Hc.
  - rewrite bool_decide_eq_true_2; [reflexivity | by eexists].
  - rewrite bool_decide_eq_false_2; [reflexivity |].
    intros [x Hx]. discriminate Hx.
Qed.

(** The [KeyError] of [capitals[...]] cannot happen after the [in] test. *)
Lemma found_or_raise_steps (r : option Country) :
  found_or_raise E r = spec_steps_bcd E r.
Proof.
  destruct r as [c|]; [| reflexivity].
  simpl. apply capital_or_raise_lookup.
Qed.

Lemma by_alpha2_str (s : string) :
  String.length s = 2 →
  get_capital_by_alpha2 E (PStr s) =
    r ← countries_get E F_alpha_2 (PStr s); spec_steps_bcd E r.
Proof.
  intros Hl. unfold get_capital_by_alpha2. simpl. rewrite Hl. simpl.
  destruct (countries_get E F_alpha_2 (PStr s)) as [r|e]; simpl;
    [apply found_or_raise_steps | reflexivity].
Qed.

Lemma by_alpha3_str (s : string) :
  String.length s = 3 →
  get_capital_by_alpha3 E (PStr s) =
    r ← countries_get E F_alpha_3 (PStr s); spec_steps_bcd E r.
Proof.
  intros Hl. unfold get_capital_by_alpha3. simpl. rewrite Hl. simpl.
  destruct (countries_get E F_alpha_3 (PStr s)) as [r|e]; simpl;
    [apply found_or_raise_steps | reflexivity].
Qed.

Lemma by_numeric_str (s : string) :
  isdigit s = true →
  get_capital_by_numeric E (PStr s) =
    r ← countries_get E F_numeric (PStr (zfill 3 s)); spec_steps_bcd E r.
Proof.
  intros Hd. unfold get_capital_by_numeric. simpl. rewrite Hd. simpl.
  destruct (countries_get E F_numeric (PStr (zfill 3 s))) as [r|e]; simpl;
    [apply found_or_raise_steps | reflexivity].
Qed.

(** Called on a string, the ISO-code strategy resolves it under the class
    of the branch taken: the guards of lines 59, 74 and 89 never fire. *)
Lemma by_iso_code_str (s : string) :
  get_capital_by_iso_code E (PStr s) = resolve_as E (classify s) s.
Proof.
  unfold get_capital_by_iso_code, classify. simpl.
  destruct (isdigit s) eqn:Hd; simpl.
  - by apply by_numeric_str.
  - destruct (Nat.eqb_spec (String.length s) 2) as [H2 | H2]; simpl.
    + by apply by_alpha2_str.
    + destruct (Nat.eqb_spec (String.length s) 3) as [H3 | H3]; simpl.
      * by apply by_alpha3_str.
      * reflexivity.
Qed.

Lemma by_name_str (s : string) (formal common official : option Country) :
  countries_get E F_name (PStr s) = Ok formal →
  countries_get E F_common_name (PStr s) = Ok common →
  countries_get E F_official_name (PStr s) = Ok official →
  get_capital_by_name E (PStr s) =
    spec_steps_bcd E (spec_first_match formal common official).
Proof.
  intros Hf Hc Ho. unfold get_capital_by_name. rewrite Hf, Hc, Ho. simpl.
  destruct formal as [a|], common as [b|], official as [c|]; simpl;
    try apply capital_or_raise_lookup; reflexivity.
Qed.

(** The by-record strategy on a record: the table entry, or a plain
    [ValueError] when there is none. *)
Lemma by_country_record (c : Country) :
  get_capital_by_pycountry_country E (PCountry c) =
    match capitals E !! alpha_3 c with
    | Some capital => Ok capital
    | None => Raise ValueError
    end.
Proof.
  unfold get_capital_by_pycountry_country, dict_contains, dict_getitem,
    mbind, result_bind, getattr_alpha_3.
  destruct (capitals E !! alpha_3 c) as [capital|] eqn:Hc.
  - rewrite bool_decide_eq_true_2; [reflexivity | by eexists].
  - rewrite bool_decide_eq_false_2; [reflexivity |].
    intros [x Hx]. discriminate Hx.
Qed.

(** A string has no attribute [alpha_3]. *)
Lemma by_country_str (s : string) :
  get_capital_by_pycountry_country E (PStr s) = Raise AttributeError.
Proof. reflexivity. Qed.

(** A record has no method [isdigit]. *)
Lemma by_iso_code_record (c : Country) :
  get_capital_by_iso_code E (PCountry c) = Raise AttributeError.
Proof. reflexivity. Qed.

End Strategies.

(** ** The chain *)

Section Chain.
Variable E : Env.

(** The loop and the specification's chain agree as long as every failure
    met is a [ValueError]. *)
Lemma try_each_first_success (funcs : list (pyval → result string)) (q : pyval) :
  Forall (λ func, ∀ e, func q = Raise e → is_ValueError e = true) funcs →
  try_each funcs q = spec_first_success funcs q.
Proof.
  induction 1 as [| func rest Hfunc _ IH]; [reflexivity |].
  simpl. destruct (func q) as [c|e] eqn:Hq; [reflexivity |].
  by rewrite (Hfunc e eq_refl).
Qed.

(** On a string the chain is the ISO-code strategy, then the name strategy,
    then the [AttributeError] of line 41: the fuzzy strategy is never
    called. *)
Lemma get_capital_str (s : string) (fuzzy : bool) :
  get_capital E (PStr s) fuzzy =
    match get_capital_by_iso_code E (PStr s) with
    | Ok c => Ok c
    | Raise e =>
        if is_ValueError e then
          match get_capital_by_name E (PStr s) with
          | Ok c => Ok c
          | Raise e' => if is_ValueError e' then Raise AttributeError else Raise e'
          end
        else Raise e
    end.
Proof.
  unfold get_capital, FUNCTIONS.
  cbn [app try_each].
  destruct (get_capital_by_iso_code E (PStr s)) as [c|e]; [reflexivity |].
  destruct (is_ValueError e); [| reflexivity].
  destruct (get_capital_by_name E (PStr s)) as [c|e']; [reflexivity |].
  destruct (is_ValueError e'); reflexivity.
Qed.

(** On a record the chain stops in the first strategy, at line 48. *)
Lemma get_capital_record (c : Country) (fuzzy : bool) :
  get_capital E (PCountry c) fuzzy = Raise AttributeError.
Proof. reflexivity. Qed.

(** The flag has no effect on the result. *)
Lemma get_capital_flag_irrelevant (q : pyval) (fuzzy fuzzy' : bool) :
  get_capital E q fuzzy = get_capital E q fuzzy'.
Proof.
  destruct q as [s|c].
  - by rewrite !get_capital_str.
  - by rewrite !get_capital_record.
Qed.

(** Line 37 is never reached: no call ends in a [ValueError]. *)
Lemma get_capital_raises_no_ValueError (q : pyval) (fuzzy : bool) (e : exn) :
  get_capital E q fuzzy = Raise e → is_ValueError e = false.
Proof.
  destruct q as [s|c].
  - rewrite get_capital_str.
    destruct (get_capital_by_iso_code E (PStr s)) as [c|e1]; [discriminate |].
    destruct (is_ValueError e1) eqn:H1.
    + destruct (get_capital_by_name E (PStr s)) as [c|e2]; [discriminate |].
      destruct (is_ValueError e2) eqn:H2; intros [= <-]; [reflexivity | exact H2].
    + intros [= <-]. exact H1.
  - rewrite get_capital_record. intros [= <-]. reflexivity.
Qed.

(** A capital found by the ISO-code strategy is the result. *)
Lemma get_capital_iso_hit (s : string) (fuzzy : bool) (capital : string) :
  get_capital_by_iso_code E (PStr s) = Ok capital →
  get_capital E (PStr s) fuzzy = Ok capital.
Proof. intros H. by rewrite get_capital_str, H. Qed.

(** ** The cache *)

Lemma cache_find_sound (st : cache) (k : call_args) (v : string) :
  cache_sound E st → cache_find k st = Some v →
  get_capital E (fst k) (fuzzy_of k) = Ok v.
Proof.
  induction 1 as [| [k' v'] rest Hkv _ IH]; [discriminate |].
  simpl. case_bool_decide as Hk.
  - intros [= <-]. subst k'. exact Hkv.
  - exact IH.
Qed.

(** A cached call returns what the body returns and keeps the cache
    sound. *)
Lemma get_capital_cached_correct (st : cache) (k : call_args) :
  cache_sound E st →
  fst (get_capital_cached E k st) = get_capital E (fst k) (fuzzy_of k)
  ∧ cache_sound E (snd (get_capital_cached E k st)).
Proof.
  intros Hst. unfold get_capital_cached.
  destruct (cache_find k st) as [v|] eqn:Hfind.
  - split; [| exact Hst]. simpl. symmetry. by eapply cache_find_sound.
  - destruct (get_capital E (fst k) (fuzzy_of k)) as [v|e] eqn:Hbody.
    + split; [reflexivity |]. by constructor.
    + split; [reflexivity | exact Hst].
Qed.

End Chain.

(** ** The scenarios of the specification on the sample *)

Example scenario_alpha2 : get_capital sample_env (PStr "FR") false = Ok "Paris".
Proof. vm_compute. reflexivity. Qed.

Example scenario_numeric : get_capital sample_env (PStr "250") false = Ok "Paris".
Proof. vm_compute. reflexivity. Qed.

Example scenario_name : get_capital sample_env (PStr "France") false = Ok "Paris".
Proof. vm_compute. reflexivity. Qed.

Example scenario_padding : get_capital sample_env (PStr "4") false = Ok "Kabul".
Proof. vm_compute. reflexivity. Qed.

Example scenario_common_name : get_capital sample_env (PStr "Iran") false = Ok "Tehran".
Proof. vm_compute. reflexivity. Qed.

Example scenario_unknown_alpha3 :
  get_capital_by_alpha3 sample_env (PStr "ZZZ") = Raise CountryNotFoundError.
Proof. vm_compute. reflexivity. Qed.

Example scenario_superscript_digit :
  get_capital_by_iso_code sample_env (PStr (String (ascii_of_nat 178) EmptyString))
  = Raise CountryNotFoundError.
Proof. vm_compute. reflexivity. Qed.

(** * The claims *)

(** C1: the top-level resolve tries the ISO-code, name, country-record and
    (when the flag is set) fuzzy-name strategies in that order, catches any
    strategy failure and returns the capital of the first strategy that
    succeeds.  The program runs the strategies in that order but catches
    [ValueError] only: on the misspelt name "Franse" with the flag set, the
    ISO-code and name strategies fail, the fuzzy strategy called on its own
    returns "Paris", the chain as specified returns "Paris", and
    [get_capital] ends in the [AttributeError] that the country-record
    strategy raises on a string, before the fuzzy strategy is called. *)
Theorem C1_fuzzy_strategy_not_reached :
  get_capital_by_iso_code sample_env (PStr "Franse") = Raise ValueError
  ∧ get_capital_by_name sample_env (PStr "Franse") = Raise CountryNotFoundError
  ∧ get_capital_by_pycountry_country sample_env (PStr "Franse") = Raise AttributeError
  ∧ get_capital_by_fuzzy_name sample_env (PStr "Franse") = Ok "Paris"
  ∧ spec_resolve sample_env (PStr "Franse") true = Ok "Paris"
  ∧ get_capital sample_env (PStr "Franse") true = Raise AttributeError.
Proof. vm_compute. repeat split. Qed.

(** C2: each single-code strategy (alpha-2, alpha-3, numeric), on a query of
    the shape it accepts, fails with [CountryNotFoundError] when the
    directory returns no record, fails with [CapitalNotFoundError] when the
    record's alpha-3 code is not a key of the capital table, and returns the
    table's entry for that code otherwise. *)
Theorem C2_single_code_strategy (E : Env) (k : code_strategy) (s : string)
    (r : option Country) :
  accepted_shape k s = true →
  directory_answer E k s = Ok r →
  strategy_of E k (PStr s) =
    match r with
    | None => Raise CountryNotFoundError
    | Some record =>
        match capitals E !! alpha_3 record with
        | None => Raise CapitalNotFoundError
        | Some capital => Ok capital
        end
    end.
Proof.
  intros Hshape Hdir. destruct k; simpl in *.
  - apply Nat.eqb_eq in Hshape. by rewrite by_alpha2_str, Hdir.
  - apply Nat.eqb_eq in Hshape. by rewrite by_alpha3_str, Hdir.
  - by rewrite by_numeric_str, Hdir.
Qed.

Lemma C2_single_code_strategy_witness :
  accepted_shape ByAlpha3 "FRA" = true
  ∧ directory_answer sample_env ByAlpha3 "FRA" = Ok (Some france)
  ∧ strategy_of sample_env ByAlpha3 (PStr "FRA") = Ok "Paris".
Proof.
  split; [reflexivity |]. split; [reflexivity |].
  exact (C2_single_code_strategy sample_env ByAlpha3 "FRA" (Some france)
           eq_refl eq_refl).
Defined.

(** C3: on a query on which every attempted strategy fails, the top-level
    resolve fails with the single generic not-found error.  On "XX" without
    the flag every strategy of the chain fails and the chain as specified
    ends in the generic [ValueError]; [get_capital] ends in the
    [AttributeError] of the country-record strategy, which
    [except ValueError] does not catch. *)
Theorem C3_generic_error_not_raised :
  forallb (λ func, fails func (PStr "XX")) (FUNCTIONS sample_env false) = true
  ∧ spec_resolve sample_env (PStr "XX") false = Raise ValueError
  ∧ get_capital sample_env (PStr "XX") false = Raise AttributeError.
Proof. vm_compute. repeat split. Qed.

(** C4, as stated: a query all of whose characters are digits is treated as
    a numeric code.  The empty string is a counterexample: all its
    characters are digits, so as a numeric code it would be padded to "000"
    and not found in the directory, but the program rejects it as an
    invalid format. *)
Lemma C4_empty_query_counterexample :
  spec_classify "" = ShNumeric
  ∧ resolve_as sample_env (spec_classify "") "" = Raise CountryNotFoundError
  ∧ get_capital_by_iso_code sample_env (PStr "") = Raise ValueError
  ∧ get_capital_by_iso_code sample_env (PStr "")
    ≠ resolve_as sample_env (spec_classify "") "".
Proof. vm_compute. repeat split. discriminate. Qed.

(** C4, amended: the ISO-code strategy classifies every string query as
    follows: if it is not empty and all its characters are digits it is
    treated as a numeric code; otherwise if its length is exactly 2 it is
    treated as an alpha-2 code; otherwise if its length is exactly 3 it is
    treated as an alpha-3 code; any other string, the empty one included,
    fails the strategy at once with the invalid-format [ValueError], which
    is neither of the not-found errors.  The class differs from the one of
    the specification on the empty string only. *)
Theorem C4_iso_code_classification (E : Env) (s : string) :
  get_capital_by_iso_code E (PStr s) = resolve_as E (classify s) s
  ∧ classify s = (if bool_decide (s = "") then ShInvalid else spec_classify s)
  ∧ resolve_as E ShInvalid s = Raise ValueError.
Proof.
  split; [apply by_iso_code_str |]. split; [| reflexivity].
  unfold classify, spec_classify. rewrite isdigit_all_chars.
  case_bool_decide as Hs; [by subst s | reflexivity].
Qed.

(** C5: a numeric code shorter than 3 digits is left-padded with zeros
    before lookup ("4" becomes "004"), and for a numeric code whose padded
    form the directory knows, resolving the numeric code gives the same
    capital as resolving the alpha-3 code of the same country: the two
    strategies agree, and so does the top-level resolve whenever the table
    holds the country's capital or the name strategy does not tell the two
    strings apart. *)
Theorem C5_numeric_agrees_with_alpha3 (E : Env) (n : string) (c : Country) :
  isdigit n = true →
  countries_get E F_numeric (PStr (zfill 3 n)) = Ok (Some c) →
  countries_get E F_alpha_3 (PStr (alpha_3 c)) = Ok (Some c) →
  String.length (alpha_3 c) = 3 →
  isdigit (alpha_3 c) = false →
  zfill 3 "4" = "004"
  ∧ zfill 3 n = zeros (3 - String.length n) +:+ n
  ∧ get_capital_by_numeric E (PStr n) = spec_steps_bcd E (Some c)
  ∧ get_capital_by_numeric E (PStr n) = get_capital_by_alpha3 E (PStr (alpha_3 c))
  ∧ (∀ capital fuzzy fuzzy',
       capitals E !! alpha_3 c = Some capital →
       get_capital E (PStr n) fuzzy = Ok capital
       ∧ get_capital E (PStr (alpha_3 c)) fuzzy' = Ok capital)
  ∧ (∀ fuzzy,
       get_capital_by_name E (PStr n) = get_capital_by_name E (PStr (alpha_3 c)) →
       get_capital E (PStr n) fuzzy = get_capital E (PStr (alpha_3 c)) fuzzy).
Proof.
  intros Hd Hnum Ha3 Hlen Hnd.
  assert (Hn : get_capital_by_numeric E (PStr n) = spec_steps_bcd E (Some c))
    by (by rewrite by_numeric_str, Hnum).
  assert (Ha : get_capital_by_alpha3 E (PStr (alpha_3 c)) = spec_steps_bcd E (Some c))
    by (by rewrite by_alpha3_str, Ha3).
  assert (Hin : get_capital_by_iso_code E (PStr n) = spec_steps_bcd E (Some c)).
  { rewrite by_iso_code_str. unfold classify. rewrite Hd. simpl. by rewrite Hnum. }
  assert (Hia : get_capital_by_iso_code E (PStr (alpha_3 c)) = spec_steps_bcd E (Some c)).
  { rewrite by_iso_code_str. unfold classify. rewrite Hnd, Hlen. simpl.
    by rewrite Ha3. }
  split; [reflexivity |]. split; [by apply zfill_digits |].
  split; [exact Hn |]. split; [by rewrite Hn, Ha |]. split.
  - intros capital fuzzy fuzzy' Hcap.
    split; apply get_capital_iso_hit; [rewrite Hin | rewrite Hia];
      simpl; by rewrite Hcap.
  - intros fuzzy Hname. by rewrite !get_capital_str, Hin, Hia, Hname.
Qed.

Lemma C5_numeric_agrees_with_alpha3_witness :
  isdigit "4" = true
  ∧ countries_get sample_env F_numeric (PStr (zfill 3 "4")) = Ok (Some afghanistan)
  ∧ countries_get sample_env F_alpha_3 (PStr (alpha_3 afghanistan)) = Ok (Some afghanistan)
  ∧ String.length (alpha_3 afghanistan) = 3
  ∧ isdigit (alpha_3 afghanistan) = false
  ∧ get_capital_by_numeric sample_env (PStr "4")
    = get_capital_by_alpha3 sample_env (PStr (alpha_3 afghanistan)).
Proof.
  repeat (split; [reflexivity |]).
  exact (proj1 (proj2 (proj2 (proj2
    (C5_numeric_agrees_with_alpha3 sample_env "4" afghanistan
       eq_refl eq_refl eq_refl eq_refl eq_refl))))).
Defined.

(** C6: on a query that is a country record whose alpha-3 code has an entry
    in the capital table, the top-level resolve uses the record and returns
    its capital.  On the record of France the country-record strategy
    called on its own returns "Paris", but [get_capital] ends, whatever the
    flag, in the [AttributeError] that the ISO-code strategy raises at line
    48, where it calls [isdigit] on the record. *)
Theorem C6_record_query_not_resolved :
  capitals sample_env !! alpha_3 france = Some "Paris"
  ∧ get_capital_by_pycountry_country sample_env (PCountry france) = Ok "Paris"
  ∧ get_capital_by_iso_code sample_env (PCountry france) = Raise AttributeError
  ∧ get_capital sample_env (PCountry france) false = Raise AttributeError
  ∧ get_capital sample_env (PCountry france) true = Raise AttributeError.
Proof. vm_compute. repeat split. Qed.

(** C7: called directly on a record whose alpha-3 code has no entry in the
    capital table, the country-record strategy surfaces
    [CapitalNotFoundError].  On the record of Antarctica it raises a plain
    [ValueError] (line 42), where the alpha-3 strategy on the same country
    raises [CapitalNotFoundError] (line 68). *)
Theorem C7_record_strategy_raises_plain_ValueError :
  capitals sample_env !! alpha_3 antarctica = None
  ∧ get_capital_by_pycountry_country sample_env (PCountry antarctica) = Raise ValueError
  ∧ get_capital_by_alpha3 sample_env (PStr (alpha_3 antarctica)) = Raise CapitalNotFoundError.
Proof. vm_compute. repeat split. Qed.

(** A string that is not all digits and has 4 characters or more is
    rejected by the ISO-code strategy with the plain [ValueError] of line
    55. *)
Lemma by_iso_code_invalid_format (E : Env) (s : string) :
  isdigit s = false →
  (4 ≤ String.length s)%nat →
  get_capital_by_iso_code E (PStr s) = Raise ValueError.
Proof.
  intros Hd Hlen. rewrite by_iso_code_str. unfold classify. rewrite Hd.
  destruct (Nat.eqb_spec (String.length s) 2) as [H2 | _]; [lia |].
  destruct (Nat.eqb_spec (String.length s) 3) as [H3 | _]; [lia |].
  reflexivity.
Qed.

(** C8: on a string that is not all digits and has 4 characters or more,
    the ISO-code strategy called directly fails with the invalid-format
    error, and the top-level resolve still falls through to the name-based
    strategies before failing.  On "Franse" (6 characters, not digits) with
    the flag set, the ISO-code strategy raises the plain [ValueError], which
    is caught, and the name strategy is tried and fails; but the
    fuzzy-name strategy, which on its own returns "Paris", is not reached:
    [get_capital] ends in the [AttributeError] of line 41, where the chain
    restricted to the name-based strategies, and the chain as specified,
    return "Paris". *)
Theorem C8_fuzzy_name_not_reached_after_invalid_format :
  isdigit "Franse" = false
  ∧ (4 ≤ String.length "Franse")%nat
  ∧ get_capital_by_iso_code sample_env (PStr "Franse") = Raise ValueError
  ∧ get_capital_by_name sample_env (PStr "Franse") = Raise CountryNotFoundError
  ∧ get_capital_by_fuzzy_name sample_env (PStr "Franse") = Ok "Paris"
  ∧ spec_first_success
      [get_capital_by_name sample_env; get_capital_by_fuzzy_name sample_env]
      (PStr "Franse") = Ok "Paris"
  ∧ spec_resolve sample_env (PStr "Franse") true = Ok "Paris"
  ∧ get_capital sample_env (PStr "Franse") true = Raise AttributeError.
Proof.
  split; [reflexivity |]. split; [simpl; lia |].
  vm_compute. repeat split.
Qed.

(** C9: the name strategy looks the query up as a formal name, as a common
    name and as an official name; the first of the three that matches
    decides the country whose capital is returned, and when none matches
    the strategy fails with [CountryNotFoundError]. *)
Theorem C9_name_lookup_order (E : Env) (s : string)
    (formal common official : option Country) :
  countries_get E F_name (PStr s) = Ok formal →
  countries_get E F_common_name (PStr s) = Ok common →
  countries_get E F_official_name (PStr s) = Ok official →
  get_capital_by_name E (PStr s) =
    match spec_first_match formal common official with
    | None => Raise CountryNotFoundError
    | Some country =>
        match capitals E !! alpha_3 country with
        | None => Raise CapitalNotFoundError
        | Some capital => Ok capital
        end
    end.
Proof. intros Hf Hc Ho. by rewrite (by_name_str E s formal common official). Qed.

Lemma C9_name_lookup_order_witness :
  countries_get sample_env F_name (PStr "Iran") = Ok None
  ∧ countries_get sample_env F_common_name (PStr "Iran") = Ok (Some iran)
  ∧ countries_get sample_env F_official_name (PStr "Iran") = Ok None
  ∧ get_capital_by_name sample_env (PStr "Iran") = Ok "Tehran".
Proof.
  repeat (split; [reflexivity |]).
  exact (C9_name_lookup_order sample_env "Iran" None (Some iran) None
           eq_refl eq_refl eq_refl).
Defined.

(** C10: an all-digit string longer than 3 characters is treated by the
    ISO-code strategy as a numeric code, looked up as it is (padding leaves
    it unchanged, nothing is cut off): when the directory has no such
    numeric code the strategy fails with [CountryNotFoundError], and it
    never fails with the invalid-format [ValueError]. *)
Theorem C10_long_digit_string_is_numeric (E : Env) (s : string)
    (r : option Country) :
  isdigit s = true →
  (3 < String.length s)%nat →
  countries_get E F_numeric (PStr s) = Ok r →
  zfill 3 s = s
  ∧ get_capital_by_iso_code E (PStr s) = spec_steps_bcd E r
  ∧ (r = None → get_capital_by_iso_code E (PStr s) = Raise CountryNotFoundError)
  ∧ get_capital_by_iso_code E (PStr s) ≠ Raise ValueError.
Proof.
  intros Hd Hlen Hdir.
  assert (Hz : zfill 3 s = s) by (apply zfill_long; lia).
  assert (Hiso : get_capital_by_iso_code E (PStr s) = spec_steps_bcd E r).
  { rewrite by_iso_code_str. unfold classify. rewrite Hd. simpl.
    by rewrite Hz, Hdir. }
  split; [exact Hz |]. split; [exact Hiso |]. split.
  - intros ->. exact Hiso.
  - rewrite Hiso. destruct r as [c|]; simpl; [| discriminate].
    destruct (capitals E !! alpha_3 c); discriminate.
Qed.

Lemma C10_long_digit_string_is_numeric_witness :
  isdigit "2500" = true
  ∧ (3 < String.length "2500")%nat
  ∧ countries_get sample_env F_numeric (PStr "2500") = Ok None
  ∧ get_capital_by_iso_code sample_env (PStr "2500") = Raise CountryNotFoundError.
Proof.
  split; [reflexivity |]. split; [simpl; lia |]. split; [reflexivity |].
  exact (proj1 (proj2 (proj2
    (C10_long_digit_string_is_numeric sample_env "2500" None eq_refl
       (le_n 4) eq_refl))) eq_refl).
Defined.

(** * Further properties of the program *)

(** ** Padding *)

Lemma append_cons (c : ascii) (a b : string) :
  String c a +:+ b = String c (a +:+ b).
Proof. reflexivity. Qed.

Lemma length_zeros_app (n : nat) (s : string) :
  String.length (zeros n +:+ s) = (n + String.length s)%nat.
Proof.
  induction n as [| k IH]; [reflexivity |].
  cbn [zeros]. rewrite append_cons. cbn [String.length]. by rewrite IH.
Qed.

Lemma all_chars_zeros_app (n : nat) (s : string) :
  all_chars is_digit_char (zeros n +:+ s) = all_chars is_digit_char s.
Proof.
  induction n as [| k IH]; [reflexivity |].
  cbn [zeros]. rewrite append_cons. cbn [all_chars]. by rewrite IH.
Qed.

Lemma isdigit_zeros_app (n : nat) (s : string) :
  isdigit s = true → isdigit (zeros n +:+ s) = true.
Proof.
  intros Hd. destruct n as [| k]; [exact Hd |].
  cbn [zeros]. rewrite append_cons. cbn [isdigit all_chars].
  rewrite all_chars_zeros_app.
  rewrite isdigit_all_chars in Hd. apply andb_true_iff in Hd as [_ Hd].
  by rewrite Hd.
Qed.

Lemma isdigit_zfill (w : nat) (s : string) :
  isdigit s = true → isdigit (zfill w s) = true.
Proof. intros Hd. rewrite zfill_digits by done. by apply isdigit_zeros_app. Qed.

Lemma length_zfill_digits (w : nat) (s : string) :
  isdigit s = true → String.length (zfill w s) = (w `max` String.length s)%nat.
Proof. intros Hd. rewrite zfill_digits by done. rewrite length_zeros_app. lia. Qed.

(** X1: the numeric strategy and the ISO-code strategy give a digit string
    and its zero-padded form the same result ("4", "04" and "004" resolve
    alike); the padded form is again a digit string, of at least 3
    characters. *)
Theorem X1_numeric_padding_canonical (E : Env) (s : string) :
  isdigit s = true →
  isdigit (zfill 3 s) = true
  ∧ (3 ≤ String.length (zfill 3 s))%nat
  ∧ get_capital_by_numeric E (PStr (zfill 3 s)) = get_capital_by_numeric E (PStr s)
  ∧ get_capital_by_iso_code E (PStr (zfill 3 s)) = get_capital_by_iso_code E (PStr s).
Proof.
  intros Hd.
  assert (Hdz : isdigit (zfill 3 s) = true) by by apply isdigit_zfill.
  assert (Hlen : (3 ≤ String.length (zfill 3 s))%nat)
    by (rewrite length_zfill_digits by done; lia).
  assert (Hzz : zfill 3 (zfill 3 s) = zfill 3 s) by by apply zfill_long.
  split; [exact Hdz |]. split; [exact Hlen |]. split.
  - by rewrite !by_numeric_str, Hzz.
  - rewrite !by_iso_code_str. unfold classify. rewrite Hd, Hdz. simpl.
    by rewrite Hzz.
Qed.

Lemma X1_numeric_padding_canonical_witness :
  isdigit "4" = true
  ∧ get_capital_by_iso_code sample_env (PStr (zfill 3 "4"))
    = get_capital_by_iso_code sample_env (PStr "4").
Proof.
  split; [reflexivity |].
  exact (proj2 (proj2 (proj2
    (X1_numeric_padding_canonical sample_env "4" eq_refl)))).
Defined.

(** ** The guards of the single-code strategies *)

(** X2: called directly on a string that does not have its shape (length 2
    for alpha-2, length 3 for alpha-3, a non-empty all-digit string for
    numeric), a single-code strategy raises a plain [ValueError], whatever
    the directory and the table hold. *)
Theorem X2_out_of_shape_rejected (E : Env) (k : code_strategy) (s : string) :
  accepted_shape k s = false →
  strategy_of E k (PStr s) = Raise ValueError.
Proof.
  intros Hshape. destruct k; simpl in Hshape; simpl;
    [unfold get_capital_by_alpha2 | unfold get_capital_by_alpha3
     | unfold get_capital_by_numeric];
    simpl; by rewrite Hshape.
Qed.

Lemma X2_out_of_shape_rejected_witness :
  accepted_shape ByNumeric "" = false
  ∧ strategy_of sample_env ByNumeric (PStr "") = Raise ValueError.
Proof.
  split; [reflexivity |].
  exact (X2_out_of_shape_rejected sample_env ByNumeric "" eq_refl).
Defined.

(** ** The fuzzy-name strategy *)

(** X3: the fuzzy-name strategy, called directly, looks at the first match
    of the directory's search only: no match gives [CountryNotFoundError];
    otherwise the first record's table entry is returned, and when the
    table has none the strategy raises [CapitalNotFoundError] without
    turning to the matches after it. *)
Theorem X3_fuzzy_first_match_decides (E : Env) (v : pyval) (l : list Country) :
  search_fuzzy E v = Ok l →
  get_capital_by_fuzzy_name E v =
    match l with
    | [] => Raise CountryNotFoundError
    | best :: _ =>
        match capitals E !! alpha_3 best with
        | None => Raise CapitalNotFoundError
        | Some capital => Ok capital
        end
    end.
Proof.
  intros Hl. unfold get_capital_by_fuzzy_name. rewrite Hl. simpl.
  destruct l as [| best rest]; [reflexivity |].
  simpl. apply capital_or_raise_lookup.
Qed.

Lemma X3_fuzzy_first_match_decides_witness :
  search_fuzzy sample_env (PStr "Franse") = Ok [france]
  ∧ get_capital_by_fuzzy_name sample_env (PStr "Franse") = Ok "Paris".
Proof.
  split; [reflexivity |].
  exact (X3_fuzzy_first_match_decides sample_env (PStr "Franse") [france] eq_refl).
Defined.

(** ** What a strategy can return and raise *)

Section Outcomes.
Variable E : Env.

(** A capital that is a value of the table. *)
Let in_table (capital : string) : Prop := ∃ key, capitals E !! key = Some capital.

Lemma capital_or_raise_in_table (c : Country) (capital : string) :
  capital_or_raise E c = Ok capital → in_table capital.
Proof.
  rewrite capital_or_raise_lookup.
  destruct (capitals E !! alpha_3 c) as [x|] eqn:Hx; [| discriminate].
  intros [= <-]. by exists (alpha_3 c).
Qed.

Lemma found_or_raise_in_table (r : option Country) (capital : string) :
  found_or_raise E r = Ok capital → in_table capital.
Proof.
  destruct r as [c|]; [apply capital_or_raise_in_table | discriminate].
Qed.

Lemma capital_or_raise_error (c : Country) (e : exn) :
  capital_or_raise E c = Raise e → is_ValueError e = true.
Proof.
  rewrite capital_or_raise_lookup.
  destruct (capitals E !! alpha_3 c); [discriminate |].
  by intros [= <-].
Qed.

Lemma found_or_raise_error (r : option Country) (e : exn) :
  found_or_raise E r = Raise e → is_ValueError e = true.
Proof.
  destruct r as [c|]; [apply capital_or_raise_error |].
  by intros [= <-].
Qed.

Lemma by_alpha2_in_table (v : pyval) (capital : string) :
  get_capital_by_alpha2 E v = Ok capital → in_table capital.
Proof.
  unfold get_capital_by_alpha2. destruct v as [s|c]; simpl; [| discriminate].
  destruct (negb _); [discriminate |].
  destruct (countries_get E F_alpha_2 (PStr s)) as [r|e]; simpl;
    [apply found_or_raise_in_table | discriminate].
Qed.

Lemma by_alpha3_in_table (v : pyval) (capital : string) :
  get_capital_by_alpha3 E v = Ok capital → in_table capital.
Proof.
  unfold get_capital_by_alpha3. destruct v as [s|c]; simpl; [| discriminate].
  destruct (negb _); [discriminate |].
  destruct (countries_get E F_alpha_3 (PStr s)) as [r|e]; simpl;
    [apply found_or_raise_in_table | discriminate].
Qed.

Lemma by_numeric_in_table (v : pyval) (capital : string) :
  get_capital_by_numeric E v = Ok capital → in_table capital.
Proof.
  unfold get_capital_by_numeric. destruct v as [s|c]; simpl; [| discriminate].
  destruct (negb _); [discriminate |].
  destruct (countries_get E F_numeric _) as [r|e]; simpl;
    [apply found_or_raise_in_table | discriminate].
Qed.

Lemma by_iso_code_in_table (v : pyval) (capital : string) :
  get_capital_by_iso_code E v = Ok capital → in_table capital.
Proof.
  unfold get_capital_by_iso_code. destruct v as [s|c]; simpl; [| discriminate].
  destruct (isdigit s); [apply by_numeric_in_table |].
  destruct (String.length s =? 2)%nat; [apply by_alpha2_in_table |].
  destruct (String.length s =? 3)%nat; [apply by_alpha3_in_table | discriminate].
Qed.

Lemma by_name_in_table (v : pyval) (capital : string) :
  get_capital_by_name E v = Ok capital → in_table capital.
Proof.
  unfold get_capital_by_name.
  destruct (countries_get E F_name v) as [a|]; simpl; [| discriminate].
  destruct (countries_get E F_common_name v) as [b|]; simpl; [| discriminate].
  destruct (countries_get E F_official_name v) as [c|]; simpl; [| discriminate].
  destruct a, b, c; simpl;
    try apply capital_or_raise_in_table; discriminate.
Qed.

Lemma by_fuzzy_in_table (v : pyval) (capital : string) :
  get_capital_by_fuzzy_name E v = Ok capital → in_table capital.
Proof.
  unfold get_capital_by_fuzzy_name.
  destruct (search_fuzzy E v) as [l|]; simpl; [| discriminate].
  destruct l as [| best rest]; simpl;
    [discriminate | apply capital_or_raise_in_table].
Qed.

Lemma by_country_in_table (v : pyval) (capital : string) :
  get_capital_by_pycountry_country E v = Ok capital → in_table capital.
Proof.
  destruct v as [s|c]; [discriminate |].
  rewrite by_country_record.
  destruct (capitals E !! alpha_3 c) as [x|] eqn:Hx; [| discriminate].
  intros [= <-]. by exists (alpha_3 c).
Qed.

Lemma strategies_in_table :
  Forall (λ func, ∀ v capital, func v = Ok capital → in_table capital)
         (strategies E).
Proof.
  repeat constructor.
  - apply by_country_in_table.
  - apply by_iso_code_in_table.
  - apply by_alpha3_in_table.
  - apply by_alpha2_in_table.
  - apply by_numeric_in_table.
  - apply by_name_in_table.
  - apply by_fuzzy_in_table.
Qed.

Lemma try_each_in_table (funcs : list (pyval → result string)) (q : pyval)
    (capital : string) :
  Forall (λ func, ∀ v capital, func v = Ok capital → in_table capital) funcs →
  try_each funcs q = Ok capital → in_table capital.
Proof.
  induction 1 as [| func rest Hfunc _ IH]; [discriminate |].
  simpl. destruct (func q) as [c|e] eqn:Hq.
  - intros [= <-]. by eapply Hfunc.
  - destruct (is_ValueError e); [exact IH | discriminate].
Qed.

(** X4: whatever value it is called on, a strategy returns only values of
    the capital table: a result is never built from the query or from the
    record's fields. *)
Theorem X4_strategy_returns_table_value (func : pyval → result string)
    (v : pyval) (capital : string) :
  func ∈ strategies E →
  func v = Ok capital →
  ∃ key, capitals E !! key = Some capital.
Proof.
  intros Hin Hok.
  pose proof strategies_in_table as Hall.
  rewrite Forall_forall in Hall. by eapply (Hall func Hin).
Qed.

(** X5: whatever the query and the flag, a capital that [get_capital]
    returns is a value of the capital table. *)
Theorem X5_get_capital_returns_table_value (q : pyval) (fuzzy : bool)
    (capital : string) :
  get_capital E q fuzzy = Ok capital →
  ∃ key, capitals E !! key = Some capital.
Proof.
  unfold get_capital. apply try_each_in_table.
  unfold FUNCTIONS. destruct fuzzy; repeat constructor;
    first [apply by_iso_code_in_table | apply by_name_in_table
          | apply by_country_in_table | apply by_fuzzy_in_table].
Qed.

(** On a string, with a directory that answers, the guards leave only the
    three [ValueError] classes. *)
Lemma string_strategies_error (s : string) :
  answers_strings E →
  Forall (λ func, ∀ e, func (PStr s) = Raise e → is_ValueError e = true)
         (string_strategies E).
Proof.
  intros [Hget Hfuzzy].
  assert (Hiso : ∀ t e, get_capital_by_iso_code E (PStr t) = Raise e →
                        is_ValueError e = true).
  { intros t e. rewrite by_iso_code_str. unfold resolve_as.
    destruct (classify t);
      [destruct (Hget F_numeric (zfill 3 t)) as [r ->]
      | destruct (Hget F_alpha_2 t) as [r ->]
      | destruct (Hget F_alpha_3 t) as [r ->] | ]; simpl;
      rewrite <- ?found_or_raise_steps;
      try apply found_or_raise_error.
    by intros [= <-]. }
  repeat constructor; intros e.
  - apply Hiso.
  - unfold get_capital_by_alpha3. simpl.
    destruct (negb _); [by intros [= <-] |].
    destruct (Hget F_alpha_3 s) as [r ->]. simpl. apply found_or_raise_error.
  - unfold get_capital_by_alpha2. simpl.
    destruct (negb _); [by intros [= <-] |].
    destruct (Hget F_alpha_2 s) as [r ->]. simpl. apply found_or_raise_error.
  - unfold get_capital_by_numeric. simpl.
    destruct (negb _); [by intros [= <-] |].
    destruct (Hget F_numeric (zfill 3 s)) as [r ->]. simpl.
    apply found_or_raise_error.
  - destruct (Hget F_name s) as [a Ha], (Hget F_common_name s) as [b Hb],
      (Hget F_official_name s) as [c Hc].
    rewrite (by_name_str E s a b c Ha Hb Hc), <- found_or_raise_steps.
    apply found_or_raise_error.
  - unfold get_capital_by_fuzzy_name.
    destruct (Hfuzzy s) as [l ->]. simpl.
    destruct l as [| best rest]; simpl;
      [by intros [= <-] | apply capital_or_raise_error].
Qed.

(** X6: when the directory answers every string without raising, a
    strategy for strings (ISO code, alpha-3, alpha-2, numeric, name, fuzzy
    name) called on a string fails only with [ValueError],
    [CountryNotFoundError] or [CapitalNotFoundError]: the table is never
    indexed with a missing key, the list of matches never indexed when
    empty, and [None] never dereferenced. *)
Theorem X6_string_strategy_fails_with_ValueError
    (func : pyval → result string) (s : string) (e : exn) :
  answers_strings E →
  func ∈ string_strategies E →
  func (PStr s) = Raise e →
  is_ValueError e = true.
Proof.
  intros Hans Hin Hraise.
  pose proof (string_strategies_error s Hans) as Hall.
  rewrite Forall_forall in Hall. by eapply (Hall func Hin).
Qed.

End Outcomes.

Lemma X4_strategy_returns_table_value_witness :
  get_capital_by_name sample_env ∈ strategies sample_env
  ∧ get_capital_by_name sample_env (PStr "France") = Ok "Paris"
  ∧ ∃ key, capitals sample_env !! key = Some "Paris".
Proof.
  assert (Hin : get_capital_by_name sample_env ∈ strategies sample_env)
    by (unfold strategies, string_strategies; repeat constructor).
  split; [exact Hin |]. split; [reflexivity |].
  exact (X4_strategy_returns_table_value sample_env
           (get_capital_by_name sample_env) (PStr "France") "Paris" Hin eq_refl).
Defined.

Lemma X5_get_capital_returns_table_value_witness :
  get_capital sample_env (PStr "250") false = Ok "Paris"
  ∧ ∃ key, capitals sample_env !! key = Some "Paris".
Proof.
  split; [reflexivity |].
  exact (X5_get_capital_returns_table_value sample_env (PStr "250") false
           "Paris" eq_refl).
Defined.

Lemma sample_answers_strings : answers_strings sample_env.
Proof. split; intros; eexists; reflexivity. Defined.

Lemma X6_string_strategy_fails_with_ValueError_witness :
  answers_strings sample_env
  ∧ get_capital_by_fuzzy_name sample_env ∈ string_strategies sample_env
  ∧ get_capital_by_fuzzy_name sample_env (PStr "Antarctic") = Raise CapitalNotFoundError
  ∧ is_ValueError CapitalNotFoundError = true.
Proof.
  assert (Hin : get_capital_by_fuzzy_name sample_env ∈ string_strategies sample_env)
    by (unfold string_strategies; repeat constructor).
  split; [exact sample_answers_strings |]. split; [exact Hin |].
  split; [reflexivity |].
  exact (X6_string_strategy_fails_with_ValueError sample_env
           (get_capital_by_fuzzy_name sample_env) "Antarctic"
           CapitalNotFoundError sample_answers_strings Hin eq_refl).
Defined.

(** ** The loop of [get_capital] *)

Lemma try_each_skips (pre rest : list (pyval → result string)) (q : pyval) :
  Forall (λ g, ∃ e, g q = Raise e ∧ is_ValueError e = true) pre →
  try_each (pre ++ rest) q = try_each rest q.
Proof.
  induction 1 as [| g pre [e [Hg He]] _ IH]; [reflexivity |].
  simpl. by rewrite Hg, He.
Qed.

(** X7: a capital found by the ISO-code strategy is the result of
    [get_capital], whatever the name strategy would find; a capital found
    by the name strategy is the result when the ISO-code strategy has
    failed with a [ValueError]. *)
Theorem X7_iso_code_before_name (E : Env) (q : pyval) (fuzzy : bool)
    (capital : string) :
  get_capital_by_iso_code E q = Ok capital
  ∨ (∃ e, get_capital_by_iso_code E q = Raise e ∧ is_ValueError e = true
          ∧ get_capital_by_name E q = Ok capital) →
  get_capital E q fuzzy = Ok capital.
Proof.
  unfold get_capital, FUNCTIONS. cbn [app try_each].
  intros [Hiso | (e & Hiso & He & Hname)].
  - by rewrite Hiso.
  - by rewrite Hiso, He, Hname.
Qed.

Lemma X7_iso_code_before_name_witness :
  (get_capital_by_iso_code sample_env (PStr "France") = Ok "Paris"
   ∨ (∃ e, get_capital_by_iso_code sample_env (PStr "France") = Raise e
           ∧ is_ValueError e = true
           ∧ get_capital_by_name sample_env (PStr "France") = Ok "Paris"))
  ∧ get_capital sample_env (PStr "France") false = Ok "Paris".
Proof.
  assert (H : get_capital_by_iso_code sample_env (PStr "France") = Ok "Paris"
              ∨ (∃ e, get_capital_by_iso_code sample_env (PStr "France") = Raise e
                      ∧ is_ValueError e = true
                      ∧ get_capital_by_name sample_env (PStr "France") = Ok "Paris")).
  { right. exists ValueError. repeat split; reflexivity. }
  split; [exact H |].
  exact (X7_iso_code_before_name sample_env (PStr "France") false "Paris" H).
Defined.

(** X8: the loop of lines 31-35 skips the functions that raise a
    [ValueError] and ends with the first function that does anything else:
    its value is returned, its exception of another class leaves
    [get_capital], and the functions after it are not called. *)
Theorem X8_loop_ends_at_first_other_outcome
    (pre post : list (pyval → result string)) (func : pyval → result string)
    (q : pyval) :
  Forall (λ g, ∃ e, g q = Raise e ∧ is_ValueError e = true) pre →
  (∀ e, func q = Raise e → is_ValueError e = false) →
  try_each (pre ++ func :: post) q = func q.
Proof.
  intros Hpre Hfunc. rewrite try_each_skips by done.
  simpl. destruct (func q) as [c|e] eqn:Hq; [reflexivity |].
  by rewrite (Hfunc e eq_refl).
Qed.

Lemma X8_loop_ends_at_first_other_outcome_witness :
  Forall (λ g, ∃ e, g (PStr "Franse") = Raise e ∧ is_ValueError e = true)
         [get_capital_by_iso_code sample_env; get_capital_by_name sample_env]
  ∧ (∀ e, get_capital_by_pycountry_country sample_env (PStr "Franse") = Raise e →
          is_ValueError e = false)
  ∧ try_each ([get_capital_by_iso_code sample_env; get_capital_by_name sample_env]
              ++ get_capital_by_pycountry_country sample_env
                 :: [get_capital_by_fuzzy_name sample_env])
             (PStr "Franse")
    = get_capital_by_pycountry_country sample_env (PStr "Franse").
Proof.
  assert (Hpre : Forall (λ g, ∃ e, g (PStr "Franse") = Raise e ∧ is_ValueError e = true)
                   [get_capital_by_iso_code sample_env; get_capital_by_name sample_env]).
  { repeat constructor.
    - exists ValueError. split; reflexivity.
    - exists CountryNotFoundError. split; reflexivity. }
  assert (Hfunc : ∀ e, get_capital_by_pycountry_country sample_env (PStr "Franse")
                       = Raise e → is_ValueError e = false).
  { intros e He. simpl in He. injection He as <-. reflexivity. }
  split; [exact Hpre |]. split; [exact Hfunc |].
  exact (X8_loop_ends_at_first_other_outcome _ _ _ _ Hpre Hfunc).
Defined.

(** ** The cache of [get_capital] *)

Section Cache.
Variable E : Env.

Lemma run_calls_sound (ks : list call_args) (st : cache) :
  cache_sound E st →
  fst (run_calls E ks st) = map (get_capital_args E) ks
  ∧ cache_sound E (snd (run_calls E ks st)).
Proof.
  revert st. induction ks as [| k rest IH]; intros st Hst; [done |].
  simpl. destruct (get_capital_cached_correct E st k Hst) as [Hr Hst'].
  destruct (get_capital_cached E k st) as [r st'] eqn:Hcall.
  simpl in Hr, Hst'. destruct (IH st' Hst') as [Hrs Hst''].
  destruct (run_calls E rest st') as [rs st''].
  simpl in *. split; [| exact Hst'']. by rewrite Hr, Hrs.
Qed.

Lemma cache_find_kept (k k' : call_args) (st : cache) (v : string) :
  cache_find k st = Some v →
  cache_find k (snd (get_capital_cached E k' st)) = Some v.
Proof.
  intros Hk. unfold get_capital_cached.
  destruct (cache_find k' st) as [v'|] eqn:Hk'; [exact Hk |].
  destruct (get_capital E (fst k') (fuzzy_of k')) as [v'|e]; [| exact Hk].
  simpl. case_bool_decide as Heq; [| exact Hk].
  subst k'. congruence.
Qed.

(** X9: from the empty cache of a starting process, any sequence of calls
    of the cached [get_capital] gives, call by call, what the undecorated
    function gives, and every value in the cache at the end is what the
    body returns on its key. *)
Theorem X9_cached_calls_transparent (ks : list call_args) :
  fst (run_calls E ks []) = map (get_capital_args E) ks
  ∧ cache_sound E (snd (run_calls E ks [])).
Proof. apply run_calls_sound. constructor. Qed.

(** X10: once a call has returned a capital, the same call made again
    returns the same capital from the cache and leaves the cache as it is;
    neither the table nor the directory is read (the second call may be
    run in any environment). *)
Theorem X10_repeated_call_hits_cache (E' : Env) (k : call_args) (st : cache)
    (v : string) :
  fst (get_capital_cached E k st) = Ok v →
  get_capital_cached E' k (snd (get_capital_cached E k st))
  = (Ok v, snd (get_capital_cached E k st)).
Proof.
  unfold get_capital_cached at 1 3 4.
  destruct (cache_find k st) as [v0|] eqn:Hfind; simpl.
  - intros [= <-]. unfold get_capital_cached. by rewrite Hfind.
  - destruct (get_capital E (fst k) (fuzzy_of k)) as [v0|e]; simpl;
      [| discriminate].
    intros [= <-]. unfold get_capital_cached. simpl.
    by rewrite bool_decide_eq_true_2.
Qed.

(** X11: the cache never forgets and never overwrites: a value stored
    under some arguments is still the value found under them after any
    further sequence of calls. *)
Theorem X11_cache_entries_persist (ks : list call_args) (k : call_args)
    (st : cache) (v : string) :
  cache_find k st = Some v →
  cache_find k (snd (run_calls E ks st)) = Some v.
Proof.
  revert st. induction ks as [| k' rest IH]; intros st Hk; [exact Hk |].
  simpl. pose proof (cache_find_kept k k' st v Hk) as Hk'.
  destruct (get_capital_cached E k' st) as [r st']. simpl in Hk'.
  specialize (IH st' Hk').
  destruct (run_calls E rest st') as [rs st'']. exact IH.
Qed.

(** X12: a call that raises stores nothing: the cache is unchanged, the
    arguments have no entry, and the exception is the one of the body, so
    the same call made again runs the body again. *)
Theorem X12_exception_not_cached (k : call_args) (st : cache) (e : exn) :
  fst (get_capital_cached E k st) = Raise e →
  snd (get_capital_cached E k st) = st
  ∧ cache_find k st = None
  ∧ get_capital_args E k = Raise e.
Proof.
  unfold get_capital_cached, get_capital_args.
  destruct (cache_find k st) as [v0|]; simpl; [discriminate |].
  destruct (get_capital E (fst k) (fuzzy_of k)) as [v0|e0]; simpl;
    [discriminate |].
  by intros [= <-].
Qed.

(** X13: called directly on a country record, the country-record strategy
    returns a capital exactly when the table has an entry under the
    record's alpha-3 code, and that entry is the capital, whatever the
    directory holds; it never raises [KeyError]. *)
Theorem X13_record_strategy_direct (c : Country) (capital : string) :
  (get_capital_by_pycountry_country E (PCountry c) = Ok capital
   ↔ capitals E !! alpha_3 c = Some capital)
  ∧ get_capital_by_pycountry_country E (PCountry c) ≠ Raise KeyError.
Proof.
  rewrite by_country_record.
  destruct (capitals E !! alpha_3 c) as [x|]; split; try discriminate.
  - split; by intros [= <-].
  - split; discriminate.
Qed.

End Cache.

Lemma X10_repeated_call_hits_cache_witness :
  fst (get_capital_cached sample_env (PStr "FR", None) []) = Ok "Paris"
  ∧ get_capital_cached (mkEnv ∅ sample_get sample_search_fuzzy) (PStr "FR", None)
      (snd (get_capital_cached sample_env (PStr "FR", None) []))
    = (Ok "Paris", snd (get_capital_cached sample_env (PStr "FR", None) [])).
Proof.
  split; [reflexivity |].
  exact (X10_repeated_call_hits_cache sample_env
           (mkEnv ∅ sample_get sample_search_fuzzy) (PStr "FR", None) []
           "Paris" eq_refl).
Defined.

Lemma X11_cache_entries_persist_witness :
  cache_find (PStr "FR", None) [((PStr "FR", None), "Paris")] = Some "Paris"
  ∧ cache_find (PStr "FR", None)
      (snd (run_calls sample_env
              [(PStr "250", None); (PStr "XX", None); (PStr "FR", Some false)]
              [((PStr "FR", None), "Paris")]))
    = Some "Paris".
Proof.
  split; [reflexivity |].
  exact (X11_cache_entries_persist sample_env
           [(PStr "250", None); (PStr "XX", None); (PStr "FR", Some false)]
           (PStr "FR", None) [((PStr "FR", None), "Paris")] "Paris" eq_refl).
Defined.

Lemma X12_exception_not_cached_witness :
  fst (get_capital_cached sample_env (PStr "XX", None) []) = Raise AttributeError
  ∧ snd (get_capital_cached sample_env (PStr "XX", None) []) = [].
Proof.
  split; [reflexivity |].
  exact (proj1 (X12_exception_not_cached sample_env (PStr "XX", None) []
                  AttributeError eq_refl)).
Defined.
